(** * The Sphinx search index of the artella-launcher documentation

    [searchindex.js] is one JavaScript statement,
    [Search.setIndex({...})], whose argument is an object literal holding
    the search index of the documentation site.  This development embeds

    - the text of that statement ([searchindex_js]),
    - the reading of an object literal into a value tree ([JS.parse]),
    - the index as a typed record ([Index], [index]),

    and proves the properties of the index over them. *)

From Stdlib Require Import Ascii.
From stdpp Require Import base strings list sorting gmap fin_maps pretty.

(** ** Values, tokens and the reading of literals *)

Module JS.

Local Open Scope Z_scope.

(** A value of the literal sublanguage.  An integer literal is kept as its
    value; a literal with a fraction or an exponent, and the negative zero,
    are kept as their lexemes. *)
Inductive value :=
| JNull
| JBool (b : bool)
| JNum (n : Z)
| JReal (lexeme : string)
| JStr (s : string)
| JArr (elems : list value)
| JObj (members : list (string * value)).

(** Two dialects: [Strict] is JSON (RFC 8259), in which a key is a string;
    [Relaxed] also takes a bare identifier as a key, as an object literal
    of JavaScript does. *)
Inductive dialect := Strict | Relaxed.

Definition bare_keys (d : dialect) : bool :=
  match d with Strict => false | Relaxed => true end.

Inductive token :=
| TLBrace | TRBrace | TLBrack | TRBrack | TColon | TComma
| TStr (s : string)
| TNum (lexeme : string)
| TWord (w : string).

(** *** Character classes *)

Definition dquote : ascii := "034"%char.
Definition backslash : ascii := "092"%char.

Definition code (c : ascii) : N := N_of_ascii c.

Definition between (lo hi c : ascii) : bool :=
  ((code lo <=? code c) && (code c <=? code hi))%N.

Definition is_digit (c : ascii) : bool := between "0" "9" c.

Definition is_hex (c : ascii) : bool :=
  is_digit c || between "a" "f" c || between "A" "F" c.

Definition is_letter (c : ascii) : bool :=
  between "a" "z" c || between "A" "Z" c.

Definition is_word_start (c : ascii) : bool :=
  is_letter c || bool_decide (c = "_"%char) || bool_decide (c = "$"%char).

Definition is_word_char (c : ascii) : bool := is_word_start c || is_digit c.

Definition is_num_start (c : ascii) : bool :=
  is_digit c || bool_decide (c = "-"%char).

Definition is_num_char (c : ascii) : bool :=
  is_digit c || bool_decide (c ∈ ["-"; "+"; "."; "e"; "E"]%char).

Definition is_ws (c : ascii) : bool :=
  bool_decide (c ∈ [" "; "009"; "010"; "013"]%char).

Definition is_control (c : ascii) : bool := (code c <? 32)%N.

Definition punct (c : ascii) : option token :=
  match c with
  | "{" => Some TLBrace
  | "}" => Some TRBrace
  | "[" => Some TLBrack
  | "]" => Some TRBrack
  | ":" => Some TColon
  | "," => Some TComma
  | _ => None
  end%char.

(** The character a one-letter escape stands for. *)
Definition unescape (c : ascii) : option ascii :=
  match c with
  | "034" => Some "034"
  | "092" => Some "092"
  | "/" => Some "/"
  | "b" => Some "008"
  | "f" => Some "012"
  | "n" => Some "010"
  | "r" => Some "013"
  | "t" => Some "009"
  | _ => None
  end%char.

(** *** The lexer: one pass over the characters

    The accumulators hold the characters read so far in reverse. *)
Inductive lex_state :=
| LIdle
| LStr (acc : string)
| LEsc (acc : string)
| LUni (acc : string) (more : nat)
| LNum (acc : string)
| LWord (acc : string).

Definition lex_idle (c : ascii) (out : list token)
  : option (lex_state * list token) :=
  if is_ws c then Some (LIdle, out)
  else if bool_decide (c = dquote) then Some (LStr EmptyString, out)
  else if is_num_start c then Some (LNum (String c EmptyString), out)
  else if is_word_start c then Some (LWord (String c EmptyString), out)
  else t ← punct c; Some (LIdle, t :: out).

(** A [\uXXXX] escape is checked and kept as written. *)
Definition lex_step (st : lex_state * list token) (c : ascii)
  : option (lex_state * list token) :=
  let '(s, out) := st in
  match s with
  | LIdle => lex_idle c out
  | LStr acc =>
      if bool_decide (c = dquote) then Some (LIdle, TStr (String.rev acc) :: out)
      else if bool_decide (c = backslash) then Some (LEsc acc, out)
      else if is_control c then None
      else Some (LStr (String c acc), out)
  | LEsc acc =>
      match unescape c with
      | Some c' => Some (LStr (String c' acc), out)
      | None =>
          if bool_decide (c = "u"%char)
          then Some (LUni (String c (String backslash acc)) 4, out)
          else None
      end
  | LUni acc more =>
      if is_hex c then
        match more with
        | O => None
        | S O => Some (LStr (String c acc), out)
        | S more' => Some (LUni (String c acc) more', out)
        end
      else None
  | LNum acc =>
      if is_num_char c then Some (LNum (String c acc), out)
      else lex_idle c (TNum (String.rev acc) :: out)
  | LWord acc =>
      if is_word_char c then Some (LWord (String c acc), out)
      else lex_idle c (TWord (String.rev acc) :: out)
  end.

Definition lex_end (st : lex_state * list token) : option (list token) :=
  let '(s, out) := st in
  match s with
  | LIdle => Some (reverse out)
  | LNum acc => Some (reverse (TNum (String.rev acc) :: out))
  | LWord acc => Some (reverse (TWord (String.rev acc) :: out))
  | LStr _ | LEsc _ | LUni _ _ => None
  end.

Fixpoint lex_from (st : lex_state * list token) (s : string)
  : option (list token) :=
  match s with
  | EmptyString => lex_end st
  | String c s' => st' ← lex_step st c; lex_from st' s'
  end.

Definition lex (s : string) : option (list token) := lex_from (LIdle, []) s.

(** *** Number lexemes

    An optional minus sign; the integer part, which is 0 or starts with a
    nonzero digit; an optional fraction, a dot and digits; an optional
    exponent, e or E, an optional sign and digits. *)

Fixpoint span_digits (s : string) : string * string :=
  match s with
  | String c s' =>
      if is_digit c
      then let '(ds, rest) := span_digits s' in (String c ds, rest)
      else (EmptyString, s)
  | EmptyString => (EmptyString, EmptyString)
  end.

Definition digit_value (c : ascii) : Z := Z.of_N (code c) - 48.

Fixpoint digits_value (acc : Z) (ds : string) : Z :=
  match ds with
  | EmptyString => acc
  | String c ds' => digits_value (10 * acc + digit_value c) ds'
  end.

Definition is_empty (s : string) : bool :=
  match s with EmptyString => true | _ => false end.

Definition valid_exponent (s : string) : bool :=
  let s' := match s with
            | String "+" r | String "-" r => r
            | _ => s
            end%char in
  let '(ds, rest) := span_digits s' in
  negb (is_empty ds) && is_empty rest.

Definition valid_fraction (s : string) : bool :=
  match s with
  | String "." r =>
      let '(ds, rest) := span_digits r in
      negb (is_empty ds) &&
      match rest with
      | EmptyString => true
      | String "e" r' | String "E" r' => valid_exponent r'
      | _ => false
      end
  | String "e" r | String "E" r => valid_exponent r
  | _ => false
  end%char.

Definition leading_zero (ds : string) : bool :=
  match ds with
  | String "0" (String _ _) => true
  | _ => false
  end%char.

Definition number_of_lexeme (l : string) : option value :=
  let '(neg, body) := match l with
                      | String "-" r => (true, r)
                      | _ => (false, l)
                      end%char in
  let '(ds, rest) := span_digits body in
  let n := digits_value 0 ds in
  if is_empty ds || leading_zero ds then None
  else if is_empty rest
       then Some (if neg then (if n =? 0 then JReal l else JNum (- n)) else JNum n)
       else if valid_fraction rest then Some (JReal l) else None.

Definition literal_of_word (w : string) : option value :=
  if bool_decide (w = "true") then Some (JBool true)
  else if bool_decide (w = "false") then Some (JBool false)
  else if bool_decide (w = "null") then Some JNull
  else None.

(** *** The parser: a stack machine over the tokens *)

(** An open array with its elements so far, an open object with its members
    so far, or an open object whose next member has its key read; the
    accumulators are in reverse. *)
Inductive frame :=
| FArr (acc : list value)
| FObj (acc : list (string * value))
| FKey (acc : list (string * value)) (k : string).

Inductive mode :=
| MValue            (* a value must follow *)
| MFirst            (* after an opening bracket: a value or the closing one *)
| MKeyFirst         (* after an opening brace: a key or the closing one *)
| MKey              (* after a comma in an object: a key must follow *)
| MColon (k : string)  (* after a key *)
| MNext             (* after an element or member: a comma or the closer *)
| MDone (v : value).

Definition wants_value (m : mode) : bool :=
  match m with MValue | MFirst => true | _ => false end.

Definition wants_key (m : mode) : bool :=
  match m with MKeyFirst | MKey => true | _ => false end.

(** A finished value goes to the innermost open container. *)
Definition deliver (v : value) (stk : list frame) : option (list frame * mode) :=
  match stk with
  | [] => Some ([], MDone v)
  | FArr acc :: stk' => Some (FArr (v :: acc) :: stk', MNext)
  | FKey acc k :: stk' => Some (FObj ((k, v) :: acc) :: stk', MNext)
  | FObj _ :: _ => None
  end.

Definition step (d : dialect) (st : list frame * mode) (t : token)
  : option (list frame * mode) :=
  let '(stk, m) := st in
  match t with
  | TLBrack => if wants_value m then Some (FArr [] :: stk, MFirst) else None
  | TLBrace => if wants_value m then Some (FObj [] :: stk, MKeyFirst) else None
  | TRBrack =>
      match m, stk with
      | (MFirst | MNext), FArr acc :: stk' => deliver (JArr (reverse acc)) stk'
      | _, _ => None
      end
  | TRBrace =>
      match m, stk with
      | (MKeyFirst | MNext), FObj acc :: stk' => deliver (JObj (reverse acc)) stk'
      | _, _ => None
      end
  | TComma =>
      match m, stk with
      | MNext, FArr _ :: _ => Some (stk, MValue)
      | MNext, FObj _ :: _ => Some (stk, MKey)
      | _, _ => None
      end
  | TColon =>
      match m, stk with
      | MColon k, FObj acc :: stk' => Some (FKey acc k :: stk', MValue)
      | _, _ => None
      end
  | TStr s =>
      if wants_value m then deliver (JStr s) stk
      else if wants_key m then Some (stk, MColon s)
      else None
  | TNum l =>
      if wants_value m then v ← number_of_lexeme l; deliver v stk else None
  | TWord w =>
      if wants_value m then v ← literal_of_word w; deliver v stk
      else if wants_key m && bare_keys d then Some (stk, MColon w)
      else None
  end.

Fixpoint run (d : dialect) (st : list frame * mode) (ts : list token)
  : option (list frame * mode) :=
  match ts with
  | [] => Some st
  | t :: ts' => st' ← step d st t; run d st' ts'
  end.

Definition parse (d : dialect) (s : string) : option value :=
  ts ← lex s;
  st ← run d ([], MValue) ts;
  match st with
  | ([], MDone v) => Some v
  | _ => None
  end.


End JS.

(** ** The text of [searchindex.js] *)

(** The text is written in chunks, with an apostrophe standing for each
    double quote of the file (the file has no apostrophe of its own);
    [text_of] joins the chunks and puts the double quotes back. *)
Fixpoint requote (s : string) : string :=
  match s with
  | EmptyString => EmptyString
  | String c s' =>
      String (if bool_decide (c = "'"%char) then JS.dquote else c) (requote s')
  end.

Definition text_of (chunks : list string) : string :=
  requote (foldr String.app EmptyString chunks).

Definition payload : string :=
  text_of
    [ "{docnames:['artellapipe','artellapipe.launcher',";
      "'artellapipe.launcher.core','artellapipe.launcher.core.config',";
      "'artellapipe.launcher.core.dccselector',";
      "'artellapipe.launcher.core.defines',";
      "'artellapipe.launcher.core.launcher',";
      "'artellapipe.launcher.core.updater','artellapipe.launcher.dccs',";
      "'artellapipe.launcher.dccs.houdinidcc',";
      "'artellapipe.launcher.dccs.mayadcc',";
      "'artellapipe.launcher.dccs.nukedcc',";
      "'artellapipe.launcher.dccs.photoshopdcc',";
      "'artellapipe.launcher.dccs.substancedesignerdcc',";
      "'artellapipe.launcher.dccs.substancepainterdcc',";
      "'artellapipe.launcher.dccs.zbrushdcc','artellapipe.launcher.utils',";
      "'artellapipe.launcher.utils.download','artellapipe.launcher.widgets',";
      "'artellapipe.launcher.widgets.console','index','modules'],";
      "envversion:{'sphinx.domains.c':1,'sphinx.domains.changeset':1,";
      "'sphinx.domains.citation':1,'sphinx.domains.cpp':1,";
      "'sphinx.domains.javascript':1,'sphinx.domains.math':2,";
      "'sphinx.domains.python':1,'sphinx.domains.rst':1,";
      "'sphinx.domains.std':1,'sphinx.ext.todo':2,sphinx:56},";
      "filenames:['artellapipe.rst','artellapipe.launcher.rst',";
      "'artellapipe.launcher.core.rst',";
      "'artellapipe.launcher.core.config.rst',";
      "'artellapipe.launcher.core.dccselector.rst',";
      "'artellapipe.launcher.core.defines.rst',";
      "'artellapipe.launcher.core.launcher.rst',";
      "'artellapipe.launcher.core.updater.rst',";
      "'artellapipe.launcher.dccs.rst',";
      "'artellapipe.launcher.dccs.houdinidcc.rst',";
      "'artellapipe.launcher.dccs.mayadcc.rst',";
      "'artellapipe.launcher.dccs.nukedcc.rst',";
      "'artellapipe.launcher.dccs.photoshopdcc.rst',";
      "'artellapipe.launcher.dccs.substancedesignerdcc.rst',";
      "'artellapipe.launcher.dccs.substancepainterdcc.rst',";
      "'artellapipe.launcher.dccs.zbrushdcc.rst',";
      "'artellapipe.launcher.utils.rst',";
      "'artellapipe.launcher.utils.download.rst',";
      "'artellapipe.launcher.widgets.rst',";
      "'artellapipe.launcher.widgets.console.rst','index.rst','modules.rst'],";
      "objects:{'':{artellapipe:[0,0,0,'-']},'artellapipe.launcher':{core:[2,";
      "0,0,'-'],create_logger_directory:[1,4,1,''],dccs:[8,0,0,'-'],";
      "get_dccs_path:[1,4,1,''],get_launcher_config_path:[1,4,1,''],";
      "get_logging_config:[1,4,1,''],get_updater_config_path:[1,4,1,''],";
      "init:[1,4,1,''],update_paths:[1,4,1,''],utils:[16,0,0,'-'],";
      "widgets:[18,0,0,'-']},'artellapipe.launcher.core':{config:[3,0,0,'-'],";
      "defines:[5,0,0,'-']},";
      "'artellapipe.launcher.core.config':{ArtellaLauncherConfig:[3,1,1,''],";
      "create_config:[3,4,1,''],get_system_config_directory:[3,4,1,'']},";
      "'artellapipe.launcher.core.config.ArtellaLauncherConfig':{ENVIRONMENTS";
      ":[3,2,1,''],EXECUTABLES:[3,2,1,''],edit:[3,3,1,''],";
      "staticMetaObject:[3,2,1,'']},'artellapipe.launcher.dccs':{nukedcc:[11,";
      "0,0,'-'],photoshopdcc:[12,0,0,'-'],substancedesignerdcc:[13,0,0,'-'],";
      "substancepainterdcc:[14,0,0,'-'],zbrushdcc:[15,0,0,'-']},";
      "'artellapipe.launcher.dccs.nukedcc':{get_executables_from_installation";
      "_path:[11,4,1,''],get_installation_paths:[11,4,1,'']},";
      "'artellapipe.launcher.dccs.photoshopdcc':{get_executables_from_install";
      "ation_path:[12,4,1,''],get_installation_paths:[12,4,1,'']},";
      "'artellapipe.launcher.dccs.substancedesignerdcc':{get_executables_from";
      "_installation_path:[13,4,1,''],get_installation_paths:[13,4,1,'']},";
      "'artellapipe.launcher.dccs.substancepainterdcc':{get_executables_from_";
      "installation_path:[14,4,1,''],get_installation_paths:[14,4,1,'']},";
      "'artellapipe.launcher.dccs.zbrushdcc':{get_executables_from_installati";
      "on_path:[15,4,1,''],get_installation_paths:[15,4,1,'']},";
      "'artellapipe.launcher.widgets':{console:[19,0,0,'-']},";
      "'artellapipe.launcher.widgets.console':{ArtellaLauncherConsole:[19,1,";
      "1,'']},";
      "'artellapipe.launcher.widgets.console.ArtellaLauncherConsole':{output_";
      "buffer_to_file:[19,3,1,''],set_debug_level:[19,3,1,''],";
      "set_info_level:[19,3,1,''],staticMetaObject:[19,2,1,''],write:[19,3,1,";
      "''],write_error:[19,3,1,''],write_ok:[19,3,1,'']},";
      "artellapipe:{launcher:[1,0,0,'-']}},";
      "objnames:{'0':['py','module','Python module'],'1':['py','class',";
      "'Python class'],'2':['py','attribute','Python attribute'],'3':['py',";
      "'method','Python method'],'4':['py','function','Python function']},";
      "objtypes:{'0':'py:module','1':'py:class','2':'py:attribute',";
      "'3':'py:method','4':'py:function'},";
      "terms:{'class':[3,19],'default':[1,3],'function':[11,12,13,14,15],";
      "'new':19,'return':[1,3,11,12,13,14,15],add:[1,19],all:5,applic:3,";
      "artella:[1,3,19],artellalauncherconfig:3,artellalauncherconsol:19,";
      "as_path:3,base:[3,19],bool:1,buffer:19,comput:12,config:[0,1,2],";
      "config_fil:3,configur:[1,3],consol:[0,1,3,18],constant:5,construct:3,";
      "contain:[3,5,11,12,13,14,15,19],content:[20,21],core:[0,1],creat:[1,";
      "3],create_config:3,create_logger_directori:1,dcc:[0,1],";
      "dcc_install_path:3,dccselector:[0,1,2],debug:19,defin:[0,1,2],";
      "definit:5,design:13,designer_vers:13,directori:[1,3],do_reload:1,";
      "download:[0,1,16],edit:3,element:3,environ:3,error:19,execut:[3,11,12,";
      "13,14,15],fals:[1,3],file:[1,3,19],filenam:3,filepath:19,folder:[11,";
      "12,13,14,15],from:[3,11,12,13,14,15],get_dccs_path:1,";
      "get_executables_from_installation_path:[11,12,13,14,15],";
      "get_installation_path:[11,12,13,14,15],get_launcher_config_path:1,";
      "get_logging_config:1,get_system_config_directori:3,";
      "get_updater_config_path:1,green:19,handl:[11,12,13,14,15],";
      "houdinidcc:[0,1,8],implement:[3,19],index:20,info:19,init:1,initi:[0,";
      "1],instal:[11,12,13,14,15],installation_path:[11,12,13,14,15],its:[11,";
      "12,13,14,15],launcher:[0,21],launcher_nam:3,level:19,librari:5,";
      "line:19,list:[11,12,13,14,15],locat:[1,12],log:[1,19],logger:[1,19],";
      "maya:12,mayadcc:[0,1,8],messag:19,modul:[20,21],msg:19,necessari:[1,";
      "3],none:[3,19],nuke:11,nuke_vers:11,nukedcc:[0,1,8],object:[3,19],";
      "output:19,output_buffer_to_fil:19,packag:[20,21],page:20,painter:14,";
      "painter_vers:14,param:[1,11,12,13,14,15,19],parent:19,path:[1,11,12,";
      "13,14,15],photoshop:12,photoshop_vers:12,photoshopdcc:[0,1,8],";
      "platform:3,pyside2:[3,19],qmetaobject:[3,19],qset:3,qtcore:[3,19],";
      "qtextedit:19,qtwidget:19,reload:1,search:20,set:19,set_debug_level:19,";
      "set_info_level:19,specif:3,staticmetaobject:[3,19],store:19,str:[1,11,";
      "12,13,14,15,19],submodul:[0,1],subpackag:21,substanc:[13,14],";
      "substancedesignerdcc:[0,1,8],substancepainterdcc:[0,1,8],sys:1,";
      "updat:[0,1,2],update_path:1,used:5,user:12,util:[0,1],where:[1,12],";
      "whether:1,widget:[0,1],window:3,write:19,write_error:19,write_ok:19,";
      "zbrush:15,zbrush_vers:15,zbrushdcc:[0,1,8]},";
      "titles:['artellapipe package','artellapipe.launcher package',";
      "'artellapipe.launcher.core package',";
      "'artellapipe.launcher.core.config module',";
      "'artellapipe.launcher.core.dccselector module',";
      "'artellapipe.launcher.core.defines module',";
      "'artellapipe.launcher.core.launcher module',";
      "'artellapipe.launcher.core.updater module',";
      "'artellapipe.launcher.dccs package',";
      "'artellapipe.launcher.dccs.houdinidcc module',";
      "'artellapipe.launcher.dccs.mayadcc module',";
      "'artellapipe.launcher.dccs.nukedcc module',";
      "'artellapipe.launcher.dccs.photoshopdcc module',";
      "'artellapipe.launcher.dccs.substancedesignerdcc module',";
      "'artellapipe.launcher.dccs.substancepainterdcc module',";
      "'artellapipe.launcher.dccs.zbrushdcc module',";
      "'artellapipe.launcher.utils package',";
      "'artellapipe.launcher.utils.download module',";
      "'artellapipe.launcher.widgets package',";
      "'artellapipe.launcher.widgets.console module',";
      "'Welcome to artellapipe-core documentation!','artellapipe'],";
      "titleterms:{artellapip:[0,1,2,3,4,5,6,7,8,9,10,11,12,13,14,15,16,17,";
      "18,19,20,21],config:3,consol:19,content:[0,1,2,8,16,18],core:[2,3,4,5,";
      "6,7,20],dcc:[8,9,10,11,12,13,14,15],dccselector:4,defin:5,document:20,";
      "download:17,houdinidcc:9,indic:20,launcher:[1,2,3,4,5,6,7,8,9,10,11,";
      "12,13,14,15,16,17,18,19],mayadcc:10,modul:[0,1,2,3,4,5,6,7,8,9,10,11,";
      "12,13,14,15,16,17,18,19],nukedcc:11,packag:[0,1,2,8,16,18],";
      "photoshopdcc:12,submodul:[2,8,16,18],subpackag:[0,1],";
      "substancedesignerdcc:13,substancepainterdcc:14,tabl:20,updat:7,";
      "util:[16,17],welcom:20,widget:[18,19],zbrushdcc:15}}" ].

Definition searchindex_js : string := "Search.setIndex(" +:+ payload +:+ ")".

(** The argument text of a statement [f(...)], when the text is one. *)
Fixpoint strip_prefix (p s : string) : option string :=
  match p, s with
  | EmptyString, _ => Some s
  | String a p', String b s' =>
      if bool_decide (a = b) then strip_prefix p' s' else None
  | String _ _, EmptyString => None
  end.

Definition strip_suffix (p s : string) : option string :=
  String.rev <$> strip_prefix (String.rev p) (String.rev s).

Definition call_argument (f text : string) : option string :=
  rest ← strip_prefix (f +:+ "(") text;
  strip_suffix ")" rest.

(** ** The index as typed data *)

(** The posting of a term is one document ID or an array of them. *)
Inductive posting :=
| Single (d : nat)
| Multi (ds : list nat).

Definition posting_docs (p : posting) : list nat :=
  match p with
  | Single d => [d]
  | Multi ds => ds
  end.

(** An entry of [objects] is the array
    [[document ID, object-type code, priority, anchor]]. *)
Record objinfo := ObjInfo {
  obj_doc : nat;
  obj_type : nat;
  obj_prio : nat;
  obj_anchor : string
}.

Record Index := {
  docnames : list string;
  envversion : gmap string nat;
  filenames : list string;
  objects : gmap string (gmap string objinfo);
  objnames : gmap string (list string);
  objtypes : gmap string string;
  terms : gmap string posting;
  titles : list string;
  titleterms : gmap string posting
}.

(** The object an object literal denotes: the members are set from left to
    right, so that of two members with one key the later one stays. *)
Definition js_object {A} (members : list (string * A)) : gmap string A :=
  foldl (λ m kv, <[kv.1 := kv.2]> m) ∅ members.

(** The property key of an array index or numeric code, as a property access
    with a number forms it: the decimal numeral. *)
Definition js_key (n : nat) : string := pretty n.

Definition as_nat (v : JS.value) : option nat :=
  match v with
  | JS.JNum n => if bool_decide (0 ≤ n)%Z then Some (Z.to_nat n) else None
  | _ => None
  end.

Definition as_string (v : JS.value) : option string :=
  match v with
  | JS.JStr s => Some s
  | _ => None
  end.

Definition as_array {A} (f : JS.value → option A) (v : JS.value)
  : option (list A) :=
  match v with
  | JS.JArr vs => mapM f vs
  | _ => None
  end.

Definition as_object {A} (f : JS.value → option A) (v : JS.value)
  : option (gmap string A) :=
  match v with
  | JS.JObj kvs => js_object <$> mapM (λ kv, pair kv.1 <$> f kv.2) kvs
  | _ => None
  end.

Definition as_posting (v : JS.value) : option posting :=
  match v with
  | JS.JNum _ => Single <$> as_nat v
  | JS.JArr _ => Multi <$> as_array as_nat v
  | _ => None
  end.

Definition as_objinfo (v : JS.value) : option objinfo :=
  match v with
  | JS.JArr [d; t; p; a] =>
      d ← as_nat d; t ← as_nat t; p ← as_nat p; a ← as_string a;
      Some (ObjInfo d t p a)
  | _ => None
  end.

Definition decode_index (v : JS.value) : option Index :=
  o ← as_object Some v;
  dn ← o !! "docnames" ≫= as_array as_string;
  ev ← o !! "envversion" ≫= as_object as_nat;
  fn ← o !! "filenames" ≫= as_array as_string;
  ob ← o !! "objects" ≫= as_object (as_object as_objinfo);
  on ← o !! "objnames" ≫= as_object (as_array as_string);
  ot ← o !! "objtypes" ≫= as_object as_string;
  tm ← o !! "terms" ≫= as_object as_posting;
  ti ← o !! "titles" ≫= as_array as_string;
  tt ← o !! "titleterms" ≫= as_object as_posting;
  Some {| docnames := dn; envversion := ev; filenames := fn; objects := ob;
          objnames := on; objtypes := ot; terms := tm; titles := ti;
          titleterms := tt |}.

(** What the statement hands to [Search.setIndex]. *)
Definition load (d : JS.dialect) (text : string) : option Index :=
  arg ← call_argument "Search.setIndex" text;
  v ← JS.parse d arg;
  decode_index v.

(** The index of [searchindex.js], field by field as the file has it. *)
Definition index : Index := {|
  docnames :=
    [ "artellapipe"; "artellapipe.launcher"; "artellapipe.launcher.core";
      "artellapipe.launcher.core.config";
      "artellapipe.launcher.core.dccselector";
      "artellapipe.launcher.core.defines";
      "artellapipe.launcher.core.launcher";
      "artellapipe.launcher.core.updater"; "artellapipe.launcher.dccs";
      "artellapipe.launcher.dccs.houdinidcc";
      "artellapipe.launcher.dccs.mayadcc";
      "artellapipe.launcher.dccs.nukedcc";
      "artellapipe.launcher.dccs.photoshopdcc";
      "artellapipe.launcher.dccs.substancedesignerdcc";
      "artellapipe.launcher.dccs.substancepainterdcc";
      "artellapipe.launcher.dccs.zbrushdcc"; "artellapipe.launcher.utils";
      "artellapipe.launcher.utils.download"; "artellapipe.launcher.widgets";
      "artellapipe.launcher.widgets.console"; "index"; "modules" ];
  envversion :=
    js_object
      [ ("sphinx.domains.c", 1); ("sphinx.domains.changeset", 1);
        ("sphinx.domains.citation", 1); ("sphinx.domains.cpp", 1);
        ("sphinx.domains.javascript", 1); ("sphinx.domains.math", 2);
        ("sphinx.domains.python", 1); ("sphinx.domains.rst", 1);
        ("sphinx.domains.std", 1); ("sphinx.ext.todo", 2); ("sphinx", 56) ];
  filenames :=
    [ "artellapipe.rst"; "artellapipe.launcher.rst";
      "artellapipe.launcher.core.rst";
      "artellapipe.launcher.core.config.rst";
      "artellapipe.launcher.core.dccselector.rst";
      "artellapipe.launcher.core.defines.rst";
      "artellapipe.launcher.core.launcher.rst";
      "artellapipe.launcher.core.updater.rst";
      "artellapipe.launcher.dccs.rst";
      "artellapipe.launcher.dccs.houdinidcc.rst";
      "artellapipe.launcher.dccs.mayadcc.rst";
      "artellapipe.launcher.dccs.nukedcc.rst";
      "artellapipe.launcher.dccs.photoshopdcc.rst";
      "artellapipe.launcher.dccs.substancedesignerdcc.rst";
      "artellapipe.launcher.dccs.substancepainterdcc.rst";
      "artellapipe.launcher.dccs.zbrushdcc.rst";
      "artellapipe.launcher.utils.rst";
      "artellapipe.launcher.utils.download.rst";
      "artellapipe.launcher.widgets.rst";
      "artellapipe.launcher.widgets.console.rst"; "index.rst"; "modules.rst" ];
  objects :=
    js_object
      [ (EmptyString,
         js_object
           [ ("artellapipe", ObjInfo 0 0 0 "-") ]);
        ("artellapipe.launcher",
         js_object
           [ ("core", ObjInfo 2 0 0 "-");
             ("create_logger_directory", ObjInfo 1 4 1 EmptyString);
             ("dccs", ObjInfo 8 0 0 "-");
             ("get_dccs_path", ObjInfo 1 4 1 EmptyString);
             ("get_launcher_config_path", ObjInfo 1 4 1 EmptyString);
             ("get_logging_config", ObjInfo 1 4 1 EmptyString);
             ("get_updater_config_path", ObjInfo 1 4 1 EmptyString);
             ("init", ObjInfo 1 4 1 EmptyString);
             ("update_paths", ObjInfo 1 4 1 EmptyString);
             ("utils", ObjInfo 16 0 0 "-"); ("widgets", ObjInfo 18 0 0 "-") ]);
        ("artellapipe.launcher.core",
         js_object
           [ ("config", ObjInfo 3 0 0 "-"); ("defines", ObjInfo 5 0 0 "-") ]);
        ("artellapipe.launcher.core.config",
         js_object
           [ ("ArtellaLauncherConfig", ObjInfo 3 1 1 EmptyString);
             ("create_config", ObjInfo 3 4 1 EmptyString);
             ("get_system_config_directory", ObjInfo 3 4 1 EmptyString) ]);
        ("artellapipe.launcher.core.config.ArtellaLauncherConfig",
         js_object
           [ ("ENVIRONMENTS", ObjInfo 3 2 1 EmptyString);
             ("EXECUTABLES", ObjInfo 3 2 1 EmptyString);
             ("edit", ObjInfo 3 3 1 EmptyString);
             ("staticMetaObject", ObjInfo 3 2 1 EmptyString) ]);
        ("artellapipe.launcher.dccs",
         js_object
           [ ("nukedcc", ObjInfo 11 0 0 "-");
             ("photoshopdcc", ObjInfo 12 0 0 "-");
             ("substancedesignerdcc", ObjInfo 13 0 0 "-");
             ("substancepainterdcc", ObjInfo 14 0 0 "-");
             ("zbrushdcc", ObjInfo 15 0 0 "-") ]);
        ("artellapipe.launcher.dccs.nukedcc",
         js_object
           [ ("get_executables_from_installation_path", ObjInfo 11 4 1 EmptyString);
             ("get_installation_paths", ObjInfo 11 4 1 EmptyString) ]);
        ("artellapipe.launcher.dccs.photoshopdcc",
         js_object
           [ ("get_executables_from_installation_path", ObjInfo 12 4 1 EmptyString);
             ("get_installation_paths", ObjInfo 12 4 1 EmptyString) ]);
        ("artellapipe.launcher.dccs.substancedesignerdcc",
         js_object
           [ ("get_executables_from_installation_path", ObjInfo 13 4 1 EmptyString);
             ("get_installation_paths", ObjInfo 13 4 1 EmptyString) ]);
        ("artellapipe.launcher.dccs.substancepainterdcc",
         js_object
           [ ("get_executables_from_installation_path", ObjInfo 14 4 1 EmptyString);
             ("get_installation_paths", ObjInfo 14 4 1 EmptyString) ]);
        ("artellapipe.launcher.dccs.zbrushdcc",
         js_object
           [ ("get_executables_from_installation_path", ObjInfo 15 4 1 EmptyString);
             ("get_installation_paths", ObjInfo 15 4 1 EmptyString) ]);
        ("artellapipe.launcher.widgets",
         js_object
           [ ("console", ObjInfo 19 0 0 "-") ]);
        ("artellapipe.launcher.widgets.console",
         js_object
           [ ("ArtellaLauncherConsole", ObjInfo 19 1 1 EmptyString) ]);
        ("artellapipe.launcher.widgets.console.ArtellaLauncherConsole",
         js_object
           [ ("output_buffer_to_file", ObjInfo 19 3 1 EmptyString);
             ("set_debug_level", ObjInfo 19 3 1 EmptyString);
             ("set_info_level", ObjInfo 19 3 1 EmptyString);
             ("staticMetaObject", ObjInfo 19 2 1 EmptyString);
             ("write", ObjInfo 19 3 1 EmptyString);
             ("write_error", ObjInfo 19 3 1 EmptyString);
             ("write_ok", ObjInfo 19 3 1 EmptyString) ]);
        ("artellapipe",
         js_object
           [ ("launcher", ObjInfo 1 0 0 "-") ]) ];
  objnames :=
    js_object
      [ ("0", ["py"; "module"; "Python module"]);
        ("1", ["py"; "class"; "Python class"]);
        ("2", ["py"; "attribute"; "Python attribute"]);
        ("3", ["py"; "method"; "Python method"]);
        ("4", ["py"; "function"; "Python function"]) ];
  objtypes :=
    js_object
      [ ("0", "py:module"); ("1", "py:class"); ("2", "py:attribute");
        ("3", "py:method"); ("4", "py:function") ];
  terms :=
    js_object
      [ ("class", Multi [3; 19]); ("default", Multi [1; 3]);
        ("function", Multi [11; 12; 13; 14; 15]); ("new", Single 19);
        ("return", Multi [1; 3; 11; 12; 13; 14; 15]); ("add", Multi [1; 19]);
        ("all", Single 5); ("applic", Single 3);
        ("artella", Multi [1; 3; 19]); ("artellalauncherconfig", Single 3);
        ("artellalauncherconsol", Single 19); ("as_path", Single 3);
        ("base", Multi [3; 19]); ("bool", Single 1); ("buffer", Single 19);
        ("comput", Single 12); ("config", Multi [0; 1; 2]);
        ("config_fil", Single 3); ("configur", Multi [1; 3]);
        ("consol", Multi [0; 1; 3; 18]); ("constant", Single 5);
        ("construct", Single 3);
        ("contain", Multi [3; 5; 11; 12; 13; 14; 15; 19]);
        ("content", Multi [20; 21]); ("core", Multi [0; 1]);
        ("creat", Multi [1; 3]); ("create_config", Single 3);
        ("create_logger_directori", Single 1); ("dcc", Multi [0; 1]);
        ("dcc_install_path", Single 3); ("dccselector", Multi [0; 1; 2]);
        ("debug", Single 19); ("defin", Multi [0; 1; 2]);
        ("definit", Single 5); ("design", Single 13);
        ("designer_vers", Single 13); ("directori", Multi [1; 3]);
        ("do_reload", Single 1); ("download", Multi [0; 1; 16]);
        ("edit", Single 3); ("element", Single 3); ("environ", Single 3);
        ("error", Single 19); ("execut", Multi [3; 11; 12; 13; 14; 15]);
        ("fals", Multi [1; 3]); ("file", Multi [1; 3; 19]);
        ("filenam", Single 3); ("filepath", Single 19);
        ("folder", Multi [11; 12; 13; 14; 15]);
        ("from", Multi [3; 11; 12; 13; 14; 15]); ("get_dccs_path", Single 1);
        ("get_executables_from_installation_path", Multi [11; 12; 13; 14; 15]);
        ("get_installation_path", Multi [11; 12; 13; 14; 15]);
        ("get_launcher_config_path", Single 1);
        ("get_logging_config", Single 1);
        ("get_system_config_directori", Single 3);
        ("get_updater_config_path", Single 1); ("green", Single 19);
        ("handl", Multi [11; 12; 13; 14; 15]);
        ("houdinidcc", Multi [0; 1; 8]); ("implement", Multi [3; 19]);
        ("index", Single 20); ("info", Single 19); ("init", Single 1);
        ("initi", Multi [0; 1]); ("instal", Multi [11; 12; 13; 14; 15]);
        ("installation_path", Multi [11; 12; 13; 14; 15]);
        ("its", Multi [11; 12; 13; 14; 15]); ("launcher", Multi [0; 21]);
        ("launcher_nam", Single 3); ("level", Single 19);
        ("librari", Single 5); ("line", Single 19);
        ("list", Multi [11; 12; 13; 14; 15]); ("locat", Multi [1; 12]);
        ("log", Multi [1; 19]); ("logger", Multi [1; 19]);
        ("maya", Single 12); ("mayadcc", Multi [0; 1; 8]);
        ("messag", Single 19); ("modul", Multi [20; 21]); ("msg", Single 19);
        ("necessari", Multi [1; 3]); ("none", Multi [3; 19]);
        ("nuke", Single 11); ("nuke_vers", Single 11);
        ("nukedcc", Multi [0; 1; 8]); ("object", Multi [3; 19]);
        ("output", Single 19); ("output_buffer_to_fil", Single 19);
        ("packag", Multi [20; 21]); ("page", Single 20);
        ("painter", Single 14); ("painter_vers", Single 14);
        ("param", Multi [1; 11; 12; 13; 14; 15; 19]); ("parent", Single 19);
        ("path", Multi [1; 11; 12; 13; 14; 15]); ("photoshop", Single 12);
        ("photoshop_vers", Single 12); ("photoshopdcc", Multi [0; 1; 8]);
        ("platform", Single 3); ("pyside2", Multi [3; 19]);
        ("qmetaobject", Multi [3; 19]); ("qset", Single 3);
        ("qtcore", Multi [3; 19]); ("qtextedit", Single 19);
        ("qtwidget", Single 19); ("reload", Single 1); ("search", Single 20);
        ("set", Single 19); ("set_debug_level", Single 19);
        ("set_info_level", Single 19); ("specif", Single 3);
        ("staticmetaobject", Multi [3; 19]); ("store", Single 19);
        ("str", Multi [1; 11; 12; 13; 14; 15; 19]);
        ("submodul", Multi [0; 1]); ("subpackag", Single 21);
        ("substanc", Multi [13; 14]);
        ("substancedesignerdcc", Multi [0; 1; 8]);
        ("substancepainterdcc", Multi [0; 1; 8]); ("sys", Single 1);
        ("updat", Multi [0; 1; 2]); ("update_path", Single 1);
        ("used", Single 5); ("user", Single 12); ("util", Multi [0; 1]);
        ("where", Multi [1; 12]); ("whether", Single 1);
        ("widget", Multi [0; 1]); ("window", Single 3); ("write", Single 19);
        ("write_error", Single 19); ("write_ok", Single 19);
        ("zbrush", Single 15); ("zbrush_vers", Single 15);
        ("zbrushdcc", Multi [0; 1; 8]) ];
  titles :=
    [ "artellapipe package"; "artellapipe.launcher package";
      "artellapipe.launcher.core package";
      "artellapipe.launcher.core.config module";
      "artellapipe.launcher.core.dccselector module";
      "artellapipe.launcher.core.defines module";
      "artellapipe.launcher.core.launcher module";
      "artellapipe.launcher.core.updater module";
      "artellapipe.launcher.dccs package";
      "artellapipe.launcher.dccs.houdinidcc module";
      "artellapipe.launcher.dccs.mayadcc module";
      "artellapipe.launcher.dccs.nukedcc module";
      "artellapipe.launcher.dccs.photoshopdcc module";
      "artellapipe.launcher.dccs.substancedesignerdcc module";
      "artellapipe.launcher.dccs.substancepainterdcc module";
      "artellapipe.launcher.dccs.zbrushdcc module";
      "artellapipe.launcher.utils package";
      "artellapipe.launcher.utils.download module";
      "artellapipe.launcher.widgets package";
      "artellapipe.launcher.widgets.console module";
      "Welcome to artellapipe-core documentation!"; "artellapipe" ];
  titleterms :=
    js_object
      [ ("artellapip", Multi [0; 1; 2; 3; 4; 5; 6; 7; 8; 9; 10; 11; 12; 13; 14; 15; 16; 17; 18; 19; 20; 21]);
        ("config", Single 3); ("consol", Single 19);
        ("content", Multi [0; 1; 2; 8; 16; 18]);
        ("core", Multi [2; 3; 4; 5; 6; 7; 20]);
        ("dcc", Multi [8; 9; 10; 11; 12; 13; 14; 15]);
        ("dccselector", Single 4); ("defin", Single 5);
        ("document", Single 20); ("download", Single 17);
        ("houdinidcc", Single 9); ("indic", Single 20);
        ("launcher", Multi [1; 2; 3; 4; 5; 6; 7; 8; 9; 10; 11; 12; 13; 14; 15; 16; 17; 18; 19]);
        ("mayadcc", Single 10);
        ("modul", Multi [0; 1; 2; 3; 4; 5; 6; 7; 8; 9; 10; 11; 12; 13; 14; 15; 16; 17; 18; 19]);
        ("nukedcc", Single 11); ("packag", Multi [0; 1; 2; 8; 16; 18]);
        ("photoshopdcc", Single 12); ("submodul", Multi [2; 8; 16; 18]);
        ("subpackag", Multi [0; 1]); ("substancedesignerdcc", Single 13);
        ("substancepainterdcc", Single 14); ("tabl", Single 20);
        ("updat", Single 7); ("util", Multi [16; 17]); ("welcom", Single 20);
        ("widget", Multi [18; 19]); ("zbrushdcc", Single 15) ]
|}.

(** ** Derived views of the index *)

(** The entry of a name under a prefix: [objects[prefix][name]]. *)
Definition object_entry (ix : Index) (prefix name : string) : option objinfo :=
  names ← objects ix !! prefix; names !! name.

(** The object type a code resolves to: [objtypes[code]]. *)
Definition object_kind (ix : Index) (o : objinfo) : option string :=
  objtypes ix !! js_key (obj_type o).

(** The name of the document of an entry: [docnames[id]]. *)
Definition object_docname (ix : Index) (o : objinfo) : option string :=
  docnames ix !! obj_doc o.

(** The per-DCC modules of the launcher and the path of each. *)
Definition dccs_package : string := "artellapipe.launcher.dccs".

Definition dcc_modules : list string :=
  [ "houdinidcc"; "mayadcc"; "nukedcc"; "photoshopdcc";
    "substancedesignerdcc"; "substancepainterdcc"; "zbrushdcc" ].

Definition dcc_module_path (m : string) : string :=
  dccs_package +:+ "." +:+ m.

(** [objects] documents a function [name] under the path [module]. *)
Definition documents_function (ix : Index) (module name : string) : bool :=
  match object_entry ix module name with
  | Some o => bool_decide (object_kind ix o = Some "py:function")
  | None => false
  end.

Definition documents_dcc_helpers (ix : Index) (m : string) : bool :=
  documents_function ix (dcc_module_path m) "get_installation_paths" &&
  documents_function ix (dcc_module_path m)
    "get_executables_from_installation_path".

(** The kind and the document an entry of [objects] resolves to. *)
Definition describe (ix : Index) (prefix name : string)
  : option (string * string) :=
  o ← object_entry ix prefix name;
  kind ← object_kind ix o;
  doc ← object_docname ix o;
  Some (kind, doc).

(** The documents a term is posted to. *)
Definition term_docs (ix : Index) (t : string) : list nat :=
  from_option posting_docs [] (terms ix !! t).

(** A posting that is an array lists its documents in strictly increasing
    order. *)
Definition posting_sorted (p : posting) : Prop :=
  match p with
  | Single _ => True
  | Multi ds => StronglySorted lt ds
  end.

Global Instance posting_sorted_dec p : Decision (posting_sorted p).
Proof. destruct p; simpl; apply _. Defined.

(** The file name of a document. *)
Definition rst_file (docname : string) : string := docname +:+ ".rst".

(** The object type an entry of [objnames] spells: its first two components
    joined by a colon. *)
Definition qualified_name (names : list string) : option string :=
  domain ← names !! 0;
  role ← names !! 1;
  Some (domain +:+ ":" +:+ role).

Definition in_range (ix : Index) (d : nat) : Prop := d < length (docnames ix).

Definition posting_in_range (ix : Index) (p : posting) : Prop :=
  Forall (in_range ix) (posting_docs p).

Definition objinfo_resolves (ix : Index) (o : objinfo) : Prop :=
  is_Some (objtypes ix !! js_key (obj_type o)) ∧
  is_Some (objnames ix !! js_key (obj_type o)) ∧
  obj_type o ≤ 4 ∧
  in_range ix (obj_doc o).

Global Instance in_range_dec ix d : Decision (in_range ix d).
Proof. unfold in_range. apply _. Defined.

Global Instance posting_in_range_dec ix p : Decision (posting_in_range ix p).
Proof. unfold posting_in_range. apply _. Defined.

Global Instance objinfo_resolves_dec ix o : Decision (objinfo_resolves ix o).
Proof. unfold objinfo_resolves. apply _. Defined.

(** ** The layout of the index *)

(** The full path of a name under a prefix; the names of the root prefix,
    the empty string, stand alone. *)
Definition qualified (prefix name : string) : string :=
  if bool_decide (prefix = EmptyString) then name
  else prefix +:+ "." +:+ name.

(** An entry names a module (code 0), is defined by a module (a class or a
    function, codes 1 and 4), or belongs to a class (an attribute or a
    method, codes 2 and 3). *)
Definition is_module (o : objinfo) : Prop := obj_type o = 0.
Definition is_definition (o : objinfo) : Prop := obj_type o = 1 ∨ obj_type o = 4.
Definition is_class_member (o : objinfo) : Prop := obj_type o = 2 ∨ obj_type o = 3.

(** The title of a document of a package or of a module. *)
Definition titled (docname title : string) : Prop :=
  title = docname +:+ " package" ∨ title = docname +:+ " module" ∨
  docname = "index" ∨ docname = "modules".

Global Instance titled_dec d t : Decision (titled d t).
Proof. unfold titled. apply _. Defined.

(** The class a member entry under [prefix] belongs to, when the document
    of the entry is that of the module of the class. *)
Definition class_of_member (ix : Index) (prefix : string) (o : objinfo)
  : option (string * string * objinfo) :=
  doc ← docnames ix !! obj_doc o;
  cls ← strip_prefix (doc +:+ ".") prefix;
  c ← object_entry ix doc cls;
  Some (doc, cls, c).

Definition member_of_class (ix : Index) (prefix : string) (o : objinfo)
  : Prop :=
  match class_of_member ix prefix o with
  | Some (_, _, c) => obj_type c = 1 ∧ obj_doc c = obj_doc o
  | None => False
  end.

Global Instance member_of_class_dec ix prefix o :
  Decision (member_of_class ix prefix o).
Proof.
  unfold member_of_class.
  destruct (class_of_member ix prefix o) as [[[? ?] ?]|]; apply _.
Defined.

(** The parent prefix and the last component of a dotted path. *)
Fixpoint until_dot (s : string) : string * option string :=
  match s with
  | EmptyString => (EmptyString, None)
  | String c s' =>
      if bool_decide (c = "."%char) then (EmptyString, Some s')
      else let '(a, rest) := until_dot s' in (String c a, rest)
  end.

Definition parent_and_name (path : string) : string * string :=
  let '(name, parent) := until_dot (String.rev path) in
  (String.rev (default EmptyString parent), String.rev name).

Definition parent_entry (ix : Index) (prefix : string) : option objinfo :=
  let '(parent, name) := parent_and_name prefix in
  if bool_decide (prefix = qualified parent name)
  then object_entry ix parent name
  else None.

Definition prefix_recorded (ix : Index) (prefix : string) : Prop :=
  prefix = EmptyString ∨
  match parent_entry ix prefix with
  | Some o => obj_type o = 0 ∨ obj_type o = 1
  | None => False
  end.

Global Instance prefix_recorded_dec ix prefix :
  Decision (prefix_recorded ix prefix).
Proof.
  unfold prefix_recorded. destruct (parent_entry ix prefix); apply _.
Defined.

(** The order of document names: that of their characters' codes. *)
Definition name_before (a b : string) : Prop := String.compare a b = Lt.

Global Instance name_before_dec : RelDecision name_before.
Proof. intros a b. unfold name_before. apply _. Defined.

(** The characters of the keys of [terms] and [titleterms]: lower-case
    letters, digits and the underscore. *)
Definition term_char (c : ascii) : bool :=
  JS.between "a" "z" c || JS.is_digit c || bool_decide (c = "_"%char).

Definition term_key (t : string) : bool :=
  negb (JS.is_empty t) && forallb term_char (String.list_ascii_of_string t).

(** A document is posted under a term of [terms]; a document has an entry
    of [objects]. *)
Definition posted_in_terms (ix : Index) (d : nat) : Prop :=
  map_Exists (λ _ p, d ∈ posting_docs p) (terms ix).

Definition has_object_entry (ix : Index) (d : nat) : Prop :=
  map_Exists (λ _, map_Exists (λ _ o, obj_doc o = d)) (objects ix).

Definition is_contents (docname : string) : Prop :=
  docname = "index" ∨ docname = "modules".

Definition body_matches_objects (ix : Index) (d : nat) : Prop :=
  match docnames ix !! d with
  | Some doc => posted_in_terms ix d ↔ has_object_entry ix d ∨ is_contents doc
  | None => True
  end.

Global Instance body_matches_objects_dec ix d :
  Decision (body_matches_objects ix d).
Proof.
  unfold body_matches_objects, posted_in_terms, has_object_entry, is_contents.
  destruct (docnames ix !! d); apply _.
Defined.

(** An entry of [objnames]: the domain, the role and the label. *)
Definition python_objname (names : list string) : Prop :=
  match names with
  | [domain; role; label] => domain = "py" ∧ label = "Python " +:+ role
  | _ => False
  end.

Global Instance python_objname_dec names : Decision (python_objname names).
Proof.
  unfold python_objname.
  destruct names as [|? [|? [|? [|? ?]]]]; apply _.
Defined.

(** ** The keys of the text *)

(** The reserved words of ECMAScript 5.1 (section 7.6.1): the keywords, the
    future reserved words and the three literals. *)
Definition reserved_words : list string :=
  [ "break"; "case"; "catch"; "continue"; "debugger"; "default"; "delete";
    "do"; "else"; "finally"; "for"; "function"; "if"; "in"; "instanceof";
    "new"; "return"; "switch"; "this"; "throw"; "try"; "typeof"; "var";
    "void"; "while"; "with";
    "class"; "const"; "enum"; "export"; "extends"; "import"; "super";
    "implements"; "interface"; "let"; "package"; "private"; "protected";
    "public"; "static"; "yield";
    "null"; "true"; "false" ].

Definition is_identifier (s : string) : bool :=
  match s with
  | EmptyString => false
  | String c s' =>
      JS.is_word_start c && forallb JS.is_word_char (String.list_ascii_of_string s')
  end.

(** A key can be written bare when it is an identifier and no reserved
    word. *)
Definition can_be_bare (k : string) : bool :=
  is_identifier k && negb (bool_decide (k ∈ reserved_words)).

(** The keys of a token sequence, the tokens a colon follows; each with
    [true] when it is written bare. *)
Fixpoint key_tokens (ts : list JS.token) : list (bool * string) :=
  match ts with
  | [] => []
  | t :: ts' =>
      match t, ts' with
      | JS.TWord w, JS.TColon :: _ => (true, w) :: key_tokens ts'
      | JS.TStr k, JS.TColon :: _ => (false, k) :: key_tokens ts'
      | _, _ => key_tokens ts'
      end
  end.

Definition keys_of_text (text : string) : option (list (bool * string)) :=
  key_tokens <$> JS.lex text.


(** A key of [objtypes] is the code of an entry of [objects]. *)
Definition code_used (ix : Index) (k : string) : Prop :=
  map_Exists (λ _, map_Exists (λ _ o, js_key (obj_type o) = k)) (objects ix).

Global Instance code_used_dec ix k : Decision (code_used ix k).
Proof. unfold code_used. apply _. Defined.

(** A key of [envversion]: [sphinx] or a name under it. *)
Definition version_key (k : string) : Prop :=
  k = "sphinx" ∨ is_Some (strip_prefix "sphinx." k).

Global Instance version_key_dec k : Decision (version_key k).
Proof. unfold version_key. apply _. Defined.

Definition plural (p : posting) : Prop :=
  match p with
  | Single _ => True
  | Multi ds => 2 ≤ length ds
  end.

Global Instance plural_dec p : Decision (plural p).
Proof. destruct p; simpl; apply _. Defined.

Definition written_as_needed (key : bool * string) : bool :=
  bool_decide (key.1 = can_be_bare key.2).

(** ** Proofs *)

(** A closed decidable proposition is settled by evaluating its decision. *)
Ltac by_evaluation :=
  lazymatch goal with
  | |- ?P =>
      let dec := constr:(_ : Decision P) in
      apply (@bool_decide_unpack P dec); vm_cast_no_check I
  end.

Ltac by_computation :=
  lazymatch goal with
  | |- ?x = ?y => vm_cast_no_check (eq_refl y)
  end.

(** *** Objects of literals *)

Lemma js_object_snoc {A} (members : list (string * A)) k v :
  js_object (members ++ [(k, v)]) = <[k := v]> (js_object members).
Proof. unfold js_object. by rewrite foldl_snoc. Qed.

(** The last member with a key decides its value. *)
Lemma js_object_last {A} (members : list (string * A)) k v :
  js_object (members ++ [(k, v)]) !! k = Some v.
Proof. rewrite js_object_snoc. apply lookup_insert_eq. Qed.

Lemma js_object_other {A} (members : list (string * A)) k v k' :
  k ≠ k' →
  js_object (members ++ [(k, v)]) !! k' = js_object members !! k'.
Proof. intros Hk. rewrite js_object_snoc. by apply lookup_insert_ne. Qed.

(** *** The index of the file *)

Lemma searchindex_js_loads : load JS.Relaxed searchindex_js = Some index.
Proof. by_computation. Qed.

Lemma terms_in_range : map_Forall (λ _, posting_in_range index) (terms index).
Proof. by_evaluation. Qed.

Lemma titleterms_in_range :
  map_Forall (λ _, posting_in_range index) (titleterms index).
Proof. by_evaluation. Qed.

Lemma objects_resolve :
  map_Forall (λ _, map_Forall (λ _, objinfo_resolves index)) (objects index).
Proof. by_evaluation. Qed.

(** C1.  Every document ID in the posting of a term of [terms] or of a title
    term of [titleterms], be the posting one ID or an array of IDs, is an
    index into [docnames]: it is below the length of the array, and the
    lookup of its document name succeeds. *)
Theorem posted_docs_in_range (t : string) (p : posting) (d : nat) :
  terms index !! t = Some p ∨ titleterms index !! t = Some p →
  d ∈ posting_docs p →
  d < length (docnames index) ∧ is_Some (docnames index !! d).
Proof.
  intros Hp Hd.
  assert (posting_in_range index p) as Hall.
  { destruct Hp as [Hp|Hp].
    - exact (terms_in_range t p Hp).
    - exact (titleterms_in_range t p Hp). }
  unfold posting_in_range in Hall. rewrite Forall_forall in Hall.
  specialize (Hall d Hd). unfold in_range in Hall.
  split; [exact Hall | apply lookup_lt_is_Some; exact Hall].
Qed.

Lemma posted_docs_in_range_witness :
  21 < length (docnames index) ∧ is_Some (docnames index !! 21).
Proof.
  apply (posted_docs_in_range "content" (Multi [20; 21]) 21).
  - left. by_computation.
  - simpl. set_solver.
Defined.

(** C2.  Every entry of [objects] has an object-type code that is a key of
    [objtypes] and of [objnames], one of the codes 0 to 4, and a document ID
    that is an index into [docnames]. *)
Theorem objects_entries_resolve
    (prefix name : string) (names : gmap string objinfo) (o : objinfo) :
  objects index !! prefix = Some names →
  names !! name = Some o →
  is_Some (objtypes index !! js_key (obj_type o)) ∧
  is_Some (objnames index !! js_key (obj_type o)) ∧
  obj_type o ≤ 4 ∧
  obj_doc o < length (docnames index) ∧
  is_Some (docnames index !! obj_doc o).
Proof.
  intros Hnames Ho.
  destruct (objects_resolve prefix names Hnames name o Ho)
    as (Ht & Hn & Hc & Hd).
  unfold in_range in Hd.
  pose proof (proj2 (lookup_lt_is_Some (docnames index) (obj_doc o)) Hd).
  tauto.
Qed.

Lemma objects_entries_resolve_witness :
  let o := ObjInfo 11 4 1 EmptyString in
  is_Some (objtypes index !! js_key (obj_type o)) ∧
  is_Some (objnames index !! js_key (obj_type o)) ∧
  obj_type o ≤ 4 ∧
  obj_doc o < length (docnames index) ∧
  is_Some (docnames index !! obj_doc o).
Proof.
  intros o.
  apply (objects_entries_resolve
           "artellapipe.launcher.dccs.nukedcc" "get_installation_paths"
           (js_object
              [ ("get_executables_from_installation_path",
                 ObjInfo 11 4 1 EmptyString);
                ("get_installation_paths", ObjInfo 11 4 1 EmptyString) ])
           o); by_computation.
Defined.

(** C3, as the file has it.  Of the seven per-DCC modules, [objects] records
    five: nukedcc, photoshopdcc, substancedesignerdcc, substancepainterdcc
    and zbrushdcc.  For each of these it documents both a
    [get_installation_paths] function and a
    [get_executables_from_installation_path] function under the module's
    path.  The houdinidcc and mayadcc modules have a document in [docnames]
    but no entry in [objects], and no function is documented for them. *)
Theorem dcc_helpers_documented (m : string) :
  m ∈ dcc_modules →
  dcc_module_path m ∈ docnames index ∧
  documents_dcc_helpers index m
    = bool_decide (is_Some (objects index !! dcc_module_path m)) ∧
  (is_Some (objects index !! dcc_module_path m)
     ↔ m ≠ "houdinidcc" ∧ m ≠ "mayadcc").
Proof.
  revert m. apply Forall_forall. by_evaluation.
Qed.

Lemma dcc_helpers_documented_witness :
  dcc_module_path "nukedcc" ∈ docnames index ∧
  documents_dcc_helpers index "nukedcc"
    = bool_decide (is_Some (objects index !! dcc_module_path "nukedcc")) ∧
  (is_Some (objects index !! dcc_module_path "nukedcc")
     ↔ "nukedcc" ≠ "houdinidcc" ∧ "nukedcc" ≠ "mayadcc").
Proof.
  apply (dcc_helpers_documented "nukedcc").
  by_evaluation.
Defined.

(** C3, as stated, fails: mayadcc and houdinidcc are per-DCC modules of the
    index, and [objects] documents neither function for them. *)
Lemma maya_houdini_helpers_not_documented :
  "mayadcc" ∈ dcc_modules ∧
  objects index !! "artellapipe.launcher.dccs.mayadcc" = None ∧
  documents_function index (dcc_module_path "mayadcc")
    "get_installation_paths" = false ∧
  documents_function index (dcc_module_path "mayadcc")
    "get_executables_from_installation_path" = false ∧
  "houdinidcc" ∈ dcc_modules ∧
  objects index !! "artellapipe.launcher.dccs.houdinidcc" = None ∧
  documents_function index (dcc_module_path "houdinidcc")
    "get_installation_paths" = false ∧
  documents_function index (dcc_module_path "houdinidcc")
    "get_executables_from_installation_path" = false.
Proof.
  split_and!; first [by_computation | by_evaluation].
Qed.

(** C5.  [objects] records [edit] as a method of the class
    [ArtellaLauncherConfig] in the document of the config module, and
    [write], [write_error] and [write_ok] as methods of the class
    [ArtellaLauncherConsole] in the document of the console module; the two
    classes are recorded with the code of "py:class". *)
Theorem config_and_console_entries :
  let config := "artellapipe.launcher.core.config" in
  let console := "artellapipe.launcher.widgets.console" in
  describe index (config +:+ ".ArtellaLauncherConfig") "edit"
    = Some ("py:method", config) ∧
  describe index (console +:+ ".ArtellaLauncherConsole") "write"
    = Some ("py:method", console) ∧
  describe index (console +:+ ".ArtellaLauncherConsole") "write_error"
    = Some ("py:method", console) ∧
  describe index (console +:+ ".ArtellaLauncherConsole") "write_ok"
    = Some ("py:method", console) ∧
  describe index config "ArtellaLauncherConfig" = Some ("py:class", config) ∧
  describe index console "ArtellaLauncherConsole" = Some ("py:class", console).
Proof.
  intros config console. split_and!; by_computation.
Qed.

(** C6.  [terms] posts "do_reload" to document 1, the document of the
    artellapipe.launcher module, and "as_path" to document 3, the document of
    the config module; "fals" is posted to the documents 1 and 3 and to no
    other. *)
Theorem boolean_default_terms :
  terms index !! "do_reload" = Some (Single 1) ∧
  docnames index !! 1 = Some "artellapipe.launcher" ∧
  terms index !! "as_path" = Some (Single 3) ∧
  docnames index !! 3 = Some "artellapipe.launcher.core.config" ∧
  terms index !! "fals" = Some (Multi [1; 3]) ∧
  ∀ d, d ∈ term_docs index "fals" ↔ d = 1 ∨ d = 3.
Proof.
  split_and!; try by_computation.
  intros d.
  assert (term_docs index "fals" = [1; 3]) as -> by by_computation.
  rewrite !elem_of_cons, elem_of_nil. tauto.
Qed.

(** C7.  Each of the seven per-DCC modules has its module document in
    [docnames]. *)
Theorem dcc_module_documents_present (m : string) :
  m ∈ dcc_modules →
  ∃ i, docnames index !! i = Some (dcc_module_path m) ∧
       titles index !! i = Some (dcc_module_path m +:+ " module").
Proof.
  unfold dcc_modules. rewrite !elem_of_cons, elem_of_nil.
  intros [->|[->|[->|[->|[->|[->|[->|[]]]]]]]].
  - exists 9. split; by_computation.
  - exists 10. split; by_computation.
  - exists 11. split; by_computation.
  - exists 12. split; by_computation.
  - exists 13. split; by_computation.
  - exists 14. split; by_computation.
  - exists 15. split; by_computation.
Qed.

Lemma dcc_module_documents_present_witness :
  ∃ i, docnames index !! i = Some (dcc_module_path "mayadcc") ∧
       titles index !! i = Some (dcc_module_path "mayadcc" +:+ " module").
Proof.
  apply (dcc_module_documents_present "mayadcc").
  by_evaluation.
Defined.

(** C8.  [filenames] and [docnames] have one length, and [filenames] is
    [docnames] with ".rst" appended to each entry, index by index. *)
Theorem filenames_of_docnames :
  length (filenames index) = length (docnames index) ∧
  filenames index = rst_file <$> docnames index ∧
  ∀ i, filenames index !! i = rst_file <$> docnames index !! i.
Proof.
  assert (filenames index = rst_file <$> docnames index) as Heq
    by by_computation.
  split_and!.
  - rewrite Heq. apply length_fmap.
  - exact Heq.
  - intros i. rewrite Heq. apply list_lookup_fmap.
Qed.

Lemma postings_sorted :
  map_Forall (λ _, posting_sorted) (terms index) ∧
  map_Forall (λ _, posting_sorted) (titleterms index).
Proof. split; by_evaluation. Qed.

Lemma StronglySorted_lt_NoDup (l : list nat) : StronglySorted lt l → NoDup l.
Proof.
  induction 1 as [|x l _ IH Hx]; constructor; [|exact IH].
  intros Hin. rewrite Forall_forall in Hx. specialize (Hx x Hin). lia.
Qed.

(** C9.  Every posting of [terms] and of [titleterms] that is an array is
    strictly increasing, so without a duplicate; and the entries of
    [docnames] are pairwise distinct. *)
Theorem postings_sorted_docnames_distinct :
  (∀ t ds,
     terms index !! t = Some (Multi ds) ∨
     titleterms index !! t = Some (Multi ds) →
     StronglySorted lt ds ∧ NoDup ds) ∧
  NoDup (docnames index).
Proof.
  split; [|by_evaluation].
  intros t ds Hp.
  assert (posting_sorted (Multi ds)) as Hs.
  { destruct postings_sorted as [Ht Htt].
    destruct Hp as [Hp|Hp]; [exact (Ht t _ Hp) | exact (Htt t _ Hp)]. }
  simpl in Hs. split; [exact Hs | by apply StronglySorted_lt_NoDup].
Qed.

Lemma postings_sorted_docnames_distinct_witness :
  StronglySorted lt [0; 1; 2; 8; 16; 18] ∧ NoDup [0; 1; 2; 8; 16; 18].
Proof.
  apply (proj1 postings_sorted_docnames_distinct "content").
  right. by_computation.
Defined.

(** C10.  [objnames] and [objtypes] have one key set, the codes "0" to "4",
    and under every key the entry of [objtypes] is the first component of
    the entry of [objnames], a colon, and its second component. *)
Theorem objtypes_of_objnames :
  dom (objnames index) =@{gset string} dom (objtypes index) ∧
  dom (objtypes index) =@{gset string} list_to_set (js_key <$> seq 0 5) ∧
  (∀ k, objtypes index !! k = objnames index !! k ≫= qualified_name) ∧
  objtypes index !! "4" = Some "py:function" ∧
  objnames index !! "4" = Some ["py"; "function"; "Python function"].
Proof.
  split_and!; try by_computation.
  intros k.
  assert (objtypes index = omap qualified_name (objnames index)) as ->
    by by_computation.
  apply lookup_omap.
Qed.

(** *** The two dialects *)

Example strict_reads_json :
  JS.parse JS.Strict (text_of ["{'a':[1,-2,'x'],'b':{},'c':[null,true]} "])
  = Some (JS.JObj
            [ ("a", JS.JArr [JS.JNum 1; JS.JNum (-2); JS.JStr "x"]);
              ("b", JS.JObj []);
              ("c", JS.JArr [JS.JNull; JS.JBool true]) ]).
Proof. reflexivity. Qed.

Example strict_refuses_bare_key :
  JS.parse JS.Strict (text_of ["{a:1}"]) = None.
Proof. reflexivity. Qed.

Example relaxed_reads_bare_key :
  JS.parse JS.Relaxed (text_of ["{a:1,'new':[2]}"])
  = Some (JS.JObj [("a", JS.JNum 1); ("new", JS.JArr [JS.JNum 2])]).
Proof. reflexivity. Qed.

Example dangling_comma_refused :
  JS.parse JS.Relaxed (text_of ["[1,]"]) = None ∧
  JS.parse JS.Relaxed (text_of ["{a:1,}"]) = None ∧
  JS.parse JS.Relaxed (text_of ["[1] [2]"]) = None.
Proof. split_and!; reflexivity. Qed.

(** In the strict dialect a bare word is never taken as a key. *)
Lemma strict_step_word stk m w :
  JS.wants_value m = false →
  JS.step JS.Strict (stk, m) (JS.TWord w) = None.
Proof.
  intros Hm. simpl. rewrite Hm. by rewrite andb_false_r.
Qed.

(** The relaxed dialect extends the strict one. *)
Lemma step_strict_relaxed st t st' :
  JS.step JS.Strict st t = Some st' → JS.step JS.Relaxed st t = Some st'.
Proof.
  destruct st as [stk m].
  destruct t; try done.
  simpl. destruct (JS.wants_value m); [done|].
  by rewrite andb_false_r.
Qed.

Lemma run_strict_relaxed ts st st' :
  JS.run JS.Strict st ts = Some st' → JS.run JS.Relaxed st ts = Some st'.
Proof.
  revert st. induction ts as [|t ts IH]; intros st; simpl; [done|].
  destruct (JS.step JS.Strict st t) as [st1|] eqn:Hstep; [|done].
  apply step_strict_relaxed in Hstep. rewrite Hstep. simpl. apply IH.
Qed.

Lemma parse_strict_relaxed s v :
  JS.parse JS.Strict s = Some v → JS.parse JS.Relaxed s = Some v.
Proof.
  unfold JS.parse. destruct (JS.lex s) as [ts|]; simpl; [|done].
  destruct (JS.run JS.Strict _ ts) as [st|] eqn:Hrun; [|done].
  apply run_strict_relaxed in Hrun. by rewrite Hrun.
Qed.

(** *** The literal of the file *)

(** With pairwise distinct keys, the object of a member list does not
    depend on which of two members with one key is taken: a key has the
    value of its one member. *)
Lemma js_object_list_to_map {A} (members : list (string * A)) :
  NoDup members.*1 → js_object members = list_to_map members.
Proof.
  induction members as [|[k v] members IH] using rev_ind; [done|].
  rewrite fmap_app, NoDup_app. simpl. intros (Hnodup & Hk & _).
  rewrite js_object_snoc, IH by done.
  rewrite list_to_map_snoc; [done|].
  intros Hin. apply (Hk k Hin). apply list_elem_of_here.
Qed.

Lemma js_object_member {A} (members : list (string * A)) k v :
  NoDup members.*1 →
  js_object members !! k = Some v ↔ (k, v) ∈ members.
Proof.
  intros Hnodup. rewrite js_object_list_to_map by done.
  symmetry. by apply elem_of_list_to_map.
Qed.






(** ** The layout of the index: proofs *)

Lemma strip_prefix_Some (p s r : string) :
  strip_prefix p s = Some r → s = p +:+ r.
Proof.
  revert s. induction p as [|a p IH]; intros s; simpl.
  - intros [= ->]. reflexivity.
  - destruct s as [|b s]; [done|].
    case_bool_decide as Hab; [|done]. subst b.
    intros Hr. rewrite (IH _ Hr). reflexivity.
Qed.

Lemma object_entry_Some (ix : Index) (prefix name : string) (o : objinfo) :
  object_entry ix prefix name = Some o ↔
  ∃ names, objects ix !! prefix = Some names ∧ names !! name = Some o.
Proof.
  unfold object_entry. split.
  - destruct (objects ix !! prefix) as [names|]; simpl; [|done].
    intros Ho. by exists names.
  - intros (names & -> & Ho). exact Ho.
Qed.

Lemma app_assoc_string (a b c : string) : (a +:+ b) +:+ c = a +:+ b +:+ c.
Proof.
  induction a as [|x a IH]; [reflexivity|].
  change (String x ((a +:+ b) +:+ c) = String x (a +:+ b +:+ c)).
  by rewrite IH.
Qed.

Lemma member_of_class_elim (ix : Index) (prefix : string) (o : objinfo) :
  member_of_class ix prefix o →
  ∃ doc cls c,
    docnames ix !! obj_doc o = Some doc ∧
    prefix = doc +:+ "." +:+ cls ∧
    object_entry ix doc cls = Some c ∧
    obj_type c = 1 ∧ obj_doc c = obj_doc o.
Proof.
  unfold member_of_class, class_of_member.
  destruct (docnames ix !! obj_doc o) as [doc|]; simpl; [|done].
  destruct (strip_prefix (doc +:+ ".") prefix) as [cls|] eqn:Hcls;
    simpl; [|done].
  destruct (object_entry ix doc cls) as [c|] eqn:Hentry; simpl; [|done].
  intros [Hc1 Hc2]. exists doc, cls, c.
  apply strip_prefix_Some in Hcls. rewrite app_assoc_string in Hcls.
  by split_and!.
Qed.

Lemma titles_titled : Forall2 titled (docnames index) (titles index).
Proof. by_evaluation. Qed.

(** X1.  [titles] has one entry for each document, and the title of a
    document is its name followed by " package" or " module", but for the
    two tables of contents, [index] and [modules]. *)
Theorem titles_of_docnames :
  length (titles index) = length (docnames index) ∧
  ∀ i d, docnames index !! i = Some d →
    ∃ t, titles index !! i = Some t ∧
         (t = d +:+ " package" ∨ t = d +:+ " module" ∨
          d = "index" ∨ d = "modules").
Proof.
  split.
  - symmetry. exact (Forall2_length _ _ _ titles_titled).
  - intros i d Hd.
    destruct (Forall2_lookup_l _ _ _ _ _ titles_titled Hd) as (t & Ht & Htd).
    exists t. split; [exact Ht | exact Htd].
Qed.

Lemma titles_of_docnames_witness :
  ∃ t, titles index !! 3 = Some t ∧
       (t = "artellapipe.launcher.core.config" +:+ " package" ∨
        t = "artellapipe.launcher.core.config" +:+ " module" ∨
        "artellapipe.launcher.core.config" = "index" ∨
        "artellapipe.launcher.core.config" = "modules").
Proof.
  apply (proj2 titles_of_docnames 3 "artellapipe.launcher.core.config").
  by_computation.
Defined.

Lemma module_entries :
  map_Forall (λ prefix, map_Forall (λ name o,
    is_module o →
    docnames index !! obj_doc o = Some (qualified prefix name) ∧
    obj_prio o = 0 ∧ obj_anchor o = "-")) (objects index).
Proof. by_evaluation. Qed.

(** X2.  An entry of [objects] with the module code 0 points to the
    document named by its full path, the prefix and the name joined by a
    dot; its priority is 0 and its anchor is "-". *)
Theorem module_entries_name_documents
    (prefix name : string) (names : gmap string objinfo) (o : objinfo) :
  objects index !! prefix = Some names →
  names !! name = Some o →
  obj_type o = 0 →
  docnames index !! obj_doc o = Some (qualified prefix name) ∧
  obj_prio o = 0 ∧ obj_anchor o = "-".
Proof.
  intros Hnames Ho Ht.
  exact (module_entries prefix names Hnames name o Ho Ht).
Qed.

Lemma module_entries_name_documents_witness :
  let o := ObjInfo 19 0 0 "-" in
  docnames index !! obj_doc o
    = Some (qualified "artellapipe.launcher.widgets" "console") ∧
  obj_prio o = 0 ∧ obj_anchor o = "-".
Proof.
  intros o.
  apply (module_entries_name_documents
           "artellapipe.launcher.widgets" "console"
           (js_object [("console", ObjInfo 19 0 0 "-")]) o);
    by_computation.
Defined.

Lemma definition_entries :
  map_Forall (λ prefix, map_Forall (λ _ o,
    is_definition o →
    docnames index !! obj_doc o = Some prefix ∧
    obj_prio o = 1 ∧ obj_anchor o = EmptyString)) (objects index).
Proof. by_evaluation. Qed.

(** X3.  An entry of [objects] for a class or a function (codes 1 and 4)
    stands under the name of its own document: the prefix is the name of
    the document the entry points to.  Its priority is 1 and its anchor is
    empty. *)
Theorem definition_entries_under_document
    (prefix name : string) (names : gmap string objinfo) (o : objinfo) :
  objects index !! prefix = Some names →
  names !! name = Some o →
  obj_type o = 1 ∨ obj_type o = 4 →
  docnames index !! obj_doc o = Some prefix ∧
  obj_prio o = 1 ∧ obj_anchor o = EmptyString.
Proof.
  intros Hnames Ho Ht.
  exact (definition_entries prefix names Hnames name o Ho Ht).
Qed.

Lemma definition_entries_under_document_witness :
  let o := ObjInfo 19 1 1 EmptyString in
  docnames index !! obj_doc o = Some "artellapipe.launcher.widgets.console" ∧
  obj_prio o = 1 ∧ obj_anchor o = EmptyString.
Proof.
  intros o.
  apply (definition_entries_under_document
           "artellapipe.launcher.widgets.console" "ArtellaLauncherConsole"
           (js_object [("ArtellaLauncherConsole", ObjInfo 19 1 1 EmptyString)])
           o); [by_computation | by_computation | left; reflexivity].
Defined.

Lemma class_member_entries :
  map_Forall (λ prefix, map_Forall (λ _ o,
    is_class_member o →
    obj_prio o = 1 ∧ obj_anchor o = EmptyString ∧
    member_of_class index prefix o)) (objects index).
Proof. by_evaluation. Qed.

(** X4.  An entry of [objects] for an attribute or a method (codes 2 and 3)
    stands under the path of a class: the prefix is the name of the
    document the entry points to, a dot and a name that [objects] records,
    under that document name, as a class of the same document.  Its
    priority is 1 and its anchor is empty. *)
Theorem class_members_under_class
    (prefix name : string) (names : gmap string objinfo) (o : objinfo) :
  objects index !! prefix = Some names →
  names !! name = Some o →
  obj_type o = 2 ∨ obj_type o = 3 →
  ∃ doc cls c,
    docnames index !! obj_doc o = Some doc ∧
    prefix = doc +:+ "." +:+ cls ∧
    object_entry index doc cls = Some c ∧
    obj_type c = 1 ∧ obj_doc c = obj_doc o ∧
    obj_prio o = 1 ∧ obj_anchor o = EmptyString.
Proof.
  intros Hnames Ho Ht.
  destruct (class_member_entries prefix names Hnames name o Ho Ht)
    as (Hp & Ha & Hc).
  destruct (member_of_class_elim _ _ _ Hc) as (doc & cls & c & H).
  exists doc, cls, c. tauto.
Qed.

Lemma class_members_under_class_witness :
  let o := ObjInfo 3 3 1 EmptyString in
  ∃ doc cls c,
    docnames index !! obj_doc o = Some doc ∧
    "artellapipe.launcher.core.config.ArtellaLauncherConfig"
      = doc +:+ "." +:+ cls ∧
    object_entry index doc cls = Some c ∧
    obj_type c = 1 ∧ obj_doc c = obj_doc o ∧
    obj_prio o = 1 ∧ obj_anchor o = EmptyString.
Proof.
  intros o.
  apply (class_members_under_class
           "artellapipe.launcher.core.config.ArtellaLauncherConfig" "edit"
           (js_object
              [ ("ENVIRONMENTS", ObjInfo 3 2 1 EmptyString);
                ("EXECUTABLES", ObjInfo 3 2 1 EmptyString);
                ("edit", ObjInfo 3 3 1 EmptyString);
                ("staticMetaObject", ObjInfo 3 2 1 EmptyString) ])
           o); [by_computation | by_computation | right; reflexivity].
Defined.

Lemma parent_entry_Some (ix : Index) (prefix : string) (o : objinfo) :
  parent_entry ix prefix = Some o →
  ∃ parent name,
    prefix = qualified parent name ∧ object_entry ix parent name = Some o.
Proof.
  unfold parent_entry.
  destruct (parent_and_name prefix) as [parent name].
  case_bool_decide as Hq; [|done].
  intros Ho. by exists parent, name.
Qed.

Lemma prefix_recorded_elim (ix : Index) (prefix : string) :
  prefix_recorded ix prefix →
  prefix = EmptyString ∨
  ∃ parent name o,
    prefix = qualified parent name ∧
    object_entry ix parent name = Some o ∧
    (obj_type o = 0 ∨ obj_type o = 1).
Proof.
  intros [Hroot|Hrec]; [by left|right].
  destruct (parent_entry ix prefix) as [o|] eqn:Hparent; [|done].
  destruct (parent_entry_Some _ _ _ Hparent) as (parent & name & Hq & Ho).
  by exists parent, name, o.
Qed.

Lemma prefixes_recorded :
  map_Forall (λ prefix names, 0 < size names ∧ prefix_recorded index prefix)
    (objects index).
Proof. by_evaluation. Qed.

(** X5.  The prefixes of [objects] form a tree under the empty prefix: a
    prefix other than the empty one is the full path of an entry that
    [objects] records as a module or as a class, and no prefix has an empty
    table of names. *)
Theorem object_prefixes_recorded
    (prefix : string) (names : gmap string objinfo) :
  objects index !! prefix = Some names →
  0 < size names ∧
  (prefix = EmptyString ∨
   ∃ parent name o,
     prefix = qualified parent name ∧
     object_entry index parent name = Some o ∧
     (obj_type o = 0 ∨ obj_type o = 1)).
Proof.
  intros Hnames.
  destruct (prefixes_recorded prefix names Hnames) as [Hsize Hrec].
  split; [exact Hsize|].
  exact (prefix_recorded_elim _ _ Hrec).
Qed.

Lemma object_prefixes_recorded_witness :
  0 < size (js_object [("console", ObjInfo 19 0 0 "-")]) ∧
  ("artellapipe.launcher.widgets" = EmptyString ∨
   ∃ parent name o,
     "artellapipe.launcher.widgets" = qualified parent name ∧
     object_entry index parent name = Some o ∧
     (obj_type o = 0 ∨ obj_type o = 1)).
Proof.
  apply (object_prefixes_recorded "artellapipe.launcher.widgets").
  by_computation.
Defined.

Lemma StronglySorted_lookup {A} (R : relation A) (l : list A) i j a b :
  StronglySorted R l → i < j → l !! i = Some a → l !! j = Some b → R a b.
Proof.
  intros Hl. revert i j.
  induction Hl as [|x l _ IH Hx]; intros i j Hij Ha Hb; [done|].
  destruct j as [|j]; [lia|]. simpl in Hb.
  destruct i as [|i]; simpl in Ha.
  - injection Ha as ->. rewrite Forall_forall in Hx.
    apply Hx. by eapply list_elem_of_lookup_2.
  - apply (IH i j); [lia|done..].
Qed.

Lemma docnames_sorted : StronglySorted name_before (docnames index).
Proof. by_evaluation. Qed.

(** X6.  [docnames] is in strictly increasing order of names (compared
    character by character, by code): an earlier document has the smaller
    name. *)
Theorem docnames_increasing (i j : nat) (a b : string) :
  i < j →
  docnames index !! i = Some a →
  docnames index !! j = Some b →
  String.compare a b = Lt.
Proof.
  intros Hij Ha Hb.
  exact (StronglySorted_lookup name_before _ i j a b docnames_sorted Hij Ha Hb).
Qed.

Lemma docnames_increasing_witness :
  String.compare "artellapipe.launcher.dccs" "artellapipe.launcher.utils" = Lt.
Proof.
  apply (docnames_increasing 8 16); [lia | by_computation | by_computation].
Defined.

Lemma term_keys :
  map_Forall (λ t _, term_key t = true) (terms index) ∧
  map_Forall (λ t _, term_key t = true) (titleterms index).
Proof. split; by_evaluation. Qed.

(** X7.  Every key of [terms] and of [titleterms] is a non-empty word of
    lower-case letters, digits and underscores: no key has an upper-case
    letter, a space or a dot. *)
Theorem term_keys_lower_case (t : string) (p : posting) :
  terms index !! t = Some p ∨ titleterms index !! t = Some p →
  t ≠ EmptyString ∧
  ∀ c, c ∈ String.list_ascii_of_string t →
       JS.between "a" "z" c || JS.is_digit c || bool_decide (c = "_"%char)
       = true.
Proof.
  intros Hp.
  assert (term_key t = true) as Hkey.
  { destruct term_keys as [Ht Htt].
    destruct Hp as [Hp|Hp]; [exact (Ht t p Hp) | exact (Htt t p Hp)]. }
  unfold term_key in Hkey. apply andb_true_iff in Hkey as [Hne Hall].
  split.
  - intros ->. done.
  - intros c Hc. rewrite forallb_forall in Hall.
    apply Hall. by apply list_elem_of_In.
Qed.

Lemma term_keys_lower_case_witness :
  "qmetaobject" ≠ EmptyString ∧
  ∀ c, c ∈ String.list_ascii_of_string "qmetaobject" →
       JS.between "a" "z" c || JS.is_digit c || bool_decide (c = "_"%char)
       = true.
Proof.
  apply (term_keys_lower_case "qmetaobject" (Multi [3; 19])).
  left. by_computation.
Defined.

Lemma postings_plural :
  map_Forall (λ _, plural) (terms index) ∧
  map_Forall (λ _, plural) (titleterms index).
Proof. split; by_evaluation. Qed.

(** X8.  A posting of [terms] or of [titleterms] that is an array has at
    least two documents, a single document being written as a bare number;
    so no term is posted to no document. *)
Theorem array_postings_plural (t : string) (p : posting) :
  terms index !! t = Some p ∨ titleterms index !! t = Some p →
  posting_docs p ≠ [] ∧ ∀ ds, p = Multi ds → 2 ≤ length ds.
Proof.
  intros Hp.
  assert (plural p) as Hpl.
  { destruct postings_plural as [Ht Htt].
    destruct Hp as [Hp|Hp]; [exact (Ht t p Hp) | exact (Htt t p Hp)]. }
  clear Hp. destruct p as [d|ds]; simpl in *.
  - split; [done|]. intros ds [=].
  - split.
    + intros ->. simpl in Hpl. lia.
    + intros ds' [= <-]. exact Hpl.
Qed.

Lemma array_postings_plural_witness :
  posting_docs (Multi [20; 21]) ≠ [] ∧
  ∀ ds, Multi [20; 21] = Multi ds → 2 ≤ length ds.
Proof.
  apply (array_postings_plural "content").
  left. by_computation.
Defined.

Lemma has_object_entry_iff (ix : Index) (P : objinfo → Prop) :
  map_Exists (λ _, map_Exists (λ _ o, P o)) (objects ix) ↔
  ∃ prefix name o, object_entry ix prefix name = Some o ∧ P o.
Proof.
  unfold map_Exists. split.
  - intros (prefix & names & Hnames & name & o & Ho & HP).
    exists prefix, name, o. split; [|exact HP].
    apply object_entry_Some. by exists names.
  - intros (prefix & name & o & Ho & HP).
    apply object_entry_Some in Ho as (names & Hnames & Ho).
    by exists prefix, names; split; [|exists name, o].
Qed.

Lemma body_matches_objects_elim (ix : Index) (d : nat) (doc : string) :
  body_matches_objects ix d →
  docnames ix !! d = Some doc →
  (∃ t p, terms ix !! t = Some p ∧ d ∈ posting_docs p) ↔
  (∃ prefix name o, object_entry ix prefix name = Some o ∧ obj_doc o = d) ∨
  doc = "index" ∨ doc = "modules".
Proof.
  unfold body_matches_objects. intros H Hdoc. rewrite Hdoc in H.
  unfold has_object_entry in H.
  rewrite (has_object_entry_iff ix (λ o, obj_doc o = d)) in H.
  exact H.
Qed.

Lemma bodies_match_objects :
  Forall (body_matches_objects index) (seq 0 (length (docnames index))).
Proof. by_evaluation. Qed.

(** X9.  A document is posted under a term of [terms] exactly when
    [objects] has an entry pointing to it, or it is one of the two tables of
    contents, [index] and [modules]: the documents without an entry have no
    body text in the index. *)
Theorem body_terms_where_objects (d : nat) (doc : string) :
  docnames index !! d = Some doc →
  (∃ t p, terms index !! t = Some p ∧ d ∈ posting_docs p) ↔
  (∃ prefix name o, object_entry index prefix name = Some o ∧ obj_doc o = d) ∨
  doc = "index" ∨ doc = "modules".
Proof.
  intros Hdoc.
  pose proof (lookup_lt_Some _ _ _ Hdoc) as Hlt.
  pose proof bodies_match_objects as Hall.
  rewrite Forall_forall in Hall.
  apply body_matches_objects_elim; [|exact Hdoc].
  apply Hall. apply elem_of_seq. lia.
Qed.

Lemma body_terms_where_objects_witness :
  (∃ t p, terms index !! t = Some p ∧ 10 ∈ posting_docs p) ↔
  (∃ prefix name o, object_entry index prefix name = Some o ∧ obj_doc o = 10) ∨
  "artellapipe.launcher.dccs.mayadcc" = "index" ∨
  "artellapipe.launcher.dccs.mayadcc" = "modules".
Proof.
  apply (body_terms_where_objects 10 "artellapipe.launcher.dccs.mayadcc").
  by_computation.
Defined.

Lemma objtypes_used : map_Forall (λ k _, code_used index k) (objtypes index).
Proof. by_evaluation. Qed.

(** X10.  Every key of [objtypes] is the code of some entry of [objects]:
    the table lists no object type that the index does not use. *)
Theorem objtypes_all_used (k kind : string) :
  objtypes index !! k = Some kind →
  ∃ prefix name o,
    object_entry index prefix name = Some o ∧ js_key (obj_type o) = k.
Proof.
  intros Hk.
  apply (has_object_entry_iff index (λ o, js_key (obj_type o) = k)).
  exact (objtypes_used k kind Hk).
Qed.

Lemma objtypes_all_used_witness :
  ∃ prefix name o,
    object_entry index prefix name = Some o ∧ js_key (obj_type o) = "2".
Proof.
  apply (objtypes_all_used "2" "py:attribute").
  by_computation.
Defined.

Lemma objnames_python : map_Forall (λ _, python_objname) (objnames index).
Proof. by_evaluation. Qed.

(** X11.  Every entry of [objnames] has three components: the domain "py",
    a role, and the label "Python " followed by the role. *)
Theorem objnames_entries_python (k : string) (names : list string) :
  objnames index !! k = Some names →
  ∃ role, names = ["py"; role; "Python " +:+ role].
Proof.
  intros Hk. pose proof (objnames_python k names Hk) as Hn.
  clear Hk. unfold python_objname in Hn.
  destruct names as [|domain [|role [|label [|? ?]]]]; try done.
  destruct Hn as [-> ->]. by exists role.
Qed.

Lemma objnames_entries_python_witness :
  ∃ role, ["py"; "method"; "Python method"] = ["py"; role; "Python " +:+ role].
Proof.
  apply (objnames_entries_python "3").
  by_computation.
Defined.

Lemma envversion_keys :
  map_Forall (λ k v, 1 ≤ v ∧ version_key k) (envversion index).
Proof. by_evaluation. Qed.

(** X12.  Every entry of [envversion] has a version of at least 1, and its
    key is [sphinx] or begins with "sphinx.". *)
Theorem envversion_entries (k : string) (v : nat) :
  envversion index !! k = Some v →
  1 ≤ v ∧ (k = "sphinx" ∨ ∃ rest, k = "sphinx." +:+ rest).
Proof.
  intros Hk. destruct (envversion_keys k v Hk) as [Hv Hkey].
  split; [exact Hv|].
  destruct Hkey as [->|[rest Hrest]]; [by left|right].
  exists rest. by apply strip_prefix_Some.
Qed.

Lemma envversion_entries_witness :
  1 ≤ 2 ∧
  ("sphinx.ext.todo" = "sphinx" ∨ ∃ rest, "sphinx.ext.todo" = "sphinx." +:+ rest).
Proof.
  apply (envversion_entries "sphinx.ext.todo" 2).
  by_computation.
Defined.

Lemma payload_keys_written_as_needed :
  (λ keys, (length keys, forallb written_as_needed keys))
    <$> keys_of_text payload = Some (256, true).
Proof. by_computation. Qed.

(** X13.  The text writes each of its 256 keys bare exactly when it can: a
    key is bare when it is an identifier and no reserved word, and quoted
    when it is a reserved word or no identifier. *)
Theorem keys_quoted_when_needed :
  ∃ keys,
    keys_of_text payload = Some keys ∧
    length keys = 256 ∧
    ∀ bare k, (bare, k) ∈ keys → bare = can_be_bare k.
Proof.
  pose proof payload_keys_written_as_needed as H.
  destruct (keys_of_text payload) as [keys|]; [|done].
  injection H as Hlen Hall.
  exists keys. split_and!; [reflexivity | exact Hlen |].
  intros bare k Hin. rewrite forallb_forall in Hall.
  apply list_elem_of_In in Hin. specialize (Hall _ Hin).
  unfold written_as_needed in Hall. simpl in Hall.
  by apply bool_decide_eq_true_1 in Hall.
Qed.

Lemma keys_quoted_when_needed_witness :
  false = can_be_bare "function" ∧ true = can_be_bare "docnames".
Proof.
  destruct keys_quoted_when_needed as (keys & Hkeys & _ & Hall).
  assert (keys = default [] (keys_of_text payload)) as ->
    by (rewrite Hkeys; reflexivity).
  split; apply Hall; by_evaluation.
Defined.
